(** * Access layer of bt_mesh: opcodes, model identifiers, payloads, messages

    A shallow embedding of [bt_mesh/access.py].  Python integers are [Z],
    [bytes] objects are lists of integers in [0, 256), exceptions are the
    [Raise] branch of an error monad, and an object with [__slots__] is a
    record whose fields are [option]s: [None] is a slot that was never
    assigned, and reading it raises [AttributeError], as the interpreter
    does. *)

From Stdlib Require Import ZArith List Bool Lia String Ascii.
Import ListNotations.
Open Scope Z_scope.

(** ** Exceptions and the error monad

    One constructor per exception class the module can raise; a message
    keeps the literal part of the source's text and leaves out the value
    formatted into it. *)

Inductive exn : Type :=
| ValueError (msg : string)
| TypeError
| AttributeError (attr : string)
| IndexError
| KeyError (key : string)
| StructError
| OverflowError (msg : string)
| AssertionError
| NotImplementedError.

Inductive result (A : Type) : Type :=
| Ok (a : A)
| Raise (e : exn).
Arguments Ok {A} a.
Arguments Raise {A} e.

Definition bind {A B : Type} (r : result A) (k : A -> result B) : result B :=
  match r with
  | Ok a => k a
  | Raise e => Raise e
  end.

Notation "x <- e ;; k" := (bind e (fun x => k))
  (at level 61, e at next level, right associativity).

Definition is_ok {A : Type} (r : result A) : bool :=
  match r with Ok _ => true | Raise _ => false end.

(** ** Python values that reach the code as untyped arguments *)

Inductive pyobj : Type :=
| PyNone
| PyInt (z : Z)
| PyTuple (items : list Z).

Definition is_None (v : pyobj) : bool :=
  match v with PyNone => true | _ => false end.

(** [v < n] for an integer literal [n]: only integers are ordered against
    integers, anything else is a [TypeError]. *)
Definition py_lt_int (v : pyobj) (n : Z) : result bool :=
  match v with
  | PyInt z => Ok (z <? n)
  | _ => Raise TypeError
  end.

(** Reading a slot. *)
Definition getattr {A : Type} (attr : string) (slot : option A) : result A :=
  match slot with
  | Some v => Ok v
  | None => Raise (AttributeError attr)
  end.

(** ** [bytes] *)

Definition bytes := list Z.

Definition is_byte (x : Z) : Prop := 0 <= x < 256.
Definition is_bytes (b : bytes) : Prop := Forall is_byte b.

(** [b[i]] for a literal index [i >= 0]. *)
Definition getitem (b : bytes) (i : nat) : result Z :=
  match nth_error b i with
  | Some x => Ok x
  | None => Raise IndexError
  end.

(** [b[lo:hi]] and [b[lo:]] for literal bounds [0 <= lo <= hi]. *)
Definition slice (b : bytes) (lo hi : nat) : bytes := firstn (hi - lo) (skipn lo b).
Definition slice_from (b : bytes) (lo : nat) : bytes := skipn lo b.

(** [len(x)] as a Python integer. *)
Definition len (b : bytes) : Z := Z.of_nat (List.length b).

(** ** The [struct] formats the module uses

    All four are little-endian without padding ([<]); [B] is one unsigned
    byte, [H] an unsigned 16-bit integer.  Packing a value out of range and
    unpacking a buffer of the wrong size raise [struct.error]. *)

Definition u8_ok (v : Z) : bool := (0 <=? v) && (v <=? 0xFF).
Definition u16_ok (v : Z) : bool := (0 <=? v) && (v <=? 0xFFFF).

Definition le16 (v : Z) : bytes := [Z.land v 0xFF; Z.shiftr v 8].
Definition of_le16 (lo hi : Z) : Z := Z.lor lo (Z.shiftl hi 8).

(** [struct.pack("<B", v)] *)
Definition struct_pack_B (v : Z) : result bytes :=
  if u8_ok v then Ok [v] else Raise StructError.

(** [struct.pack("<H", v)] *)
Definition struct_pack_H (v : Z) : result bytes :=
  if u16_ok v then Ok (le16 v) else Raise StructError.

(** [struct.pack("<BH", v, w)] *)
Definition struct_pack_BH (v : Z) (w : pyobj) : result bytes :=
  match w with
  | PyInt w => if u8_ok v && u16_ok w then Ok (v :: le16 w) else Raise StructError
  | _ => Raise StructError
  end.

(** [struct.unpack("<H", b)]: a tuple of one integer. *)
Definition struct_unpack_H (b : bytes) : result pyobj :=
  match b with
  | [lo; hi] => Ok (PyTuple [of_le16 lo hi])
  | _ => Raise StructError
  end.

(** [struct.Struct("<HH").unpack(b)]: a pair of integers. *)
Definition struct_unpack_HH (b : bytes) : result (Z * Z) :=
  match b with
  | [a0; a1; b0; b1] => Ok (of_le16 a0 a1, of_le16 b0 b1)
  | _ => Raise StructError
  end.

(** [Struct("<HH").pack(v, w)] *)
Definition struct_pack_HH (v : pyobj) (w : Z) : result bytes :=
  match v with
  | PyInt v => if u16_ok v && u16_ok w then Ok (le16 v ++ le16 w) else Raise StructError
  | _ => Raise StructError
  end.

(** Truth value of an object in a condition: [None], zero and the empty
    tuple are false. *)
Definition truthy (v : pyobj) : bool :=
  match v with
  | PyNone => false
  | PyInt z => negb (z =? 0)
  | PyTuple items => match items with [] => false | _ :: _ => true end
  end.

(** ** [class Opcode] *)

Module Opcode.

(** [__slots__ = ("opcode", "company_id")].  The class assigns
    [company_id] only in the vendor branch of [__init__]; in every other
    object the slot stays empty. *)
Record t : Type := mk { opcode : option Z; company_id : option pyobj }.

Definition new : t := mk None None.
Definition set_opcode (self : t) (v : Z) : t := mk (Some v) (company_id self).
Definition set_company_id (self : t) (v : pyobj) : t := mk (opcode self) (Some v).

Definition __init__ (opcode : Z) (company_id : pyobj) : result t :=
  let self := new in
  if is_None company_id then
    if opcode <? 127 then
      Ok (set_opcode self opcode)
    else if (127 <? opcode) && (opcode <? 0xC000) then
      Ok (set_opcode self opcode)
    else
      Raise (ValueError "invalid opcode")
  else
    small <- py_lt_int company_id 0xFFFF ;;
    if small && (opcode <? 64) then
      Ok (set_opcode (set_company_id self company_id) opcode)
    else
      Ok self.

Definition __len__ (self : t) : result Z :=
  c <- getattr "company_id" (company_id self) ;;
  if negb (is_None c) then Ok 3
  else
    o <- getattr "opcode" (opcode self) ;;
    if o <? 127 then Ok 1 else Ok 2.

Definition from_bytes (b : bytes) : result t :=
  b0 <- getitem b 0 ;;
  let opcode_size := Z.shiftr b0 6 in
  opcode_size <-
    (if opcode_size <? 2 then
       if b0 =? 127 then Raise (ValueError "RFU") else Ok 1
     else Ok opcode_size) ;;
  let opcode := Z.land b0 0xC0 in
  if opcode_size =? 3 then
    company_id <- struct_unpack_H (slice b 1 3) ;;
    __init__ opcode company_id
  else if opcode_size =? 2 then
    b1 <- getitem b 1 ;;
    __init__ (Z.lor (Z.shiftl opcode 8) b1) PyNone
  else
    __init__ opcode PyNone.

Definition as_bytes (self : t) : result bytes :=
  opcode_len <- __len__ self ;;
  if opcode_len =? 3 then
    o <- getattr "opcode" (opcode self) ;;
    c <- getattr "company_id" (company_id self) ;;
    struct_pack_BH (Z.lor o 0xC0) c
  else if opcode_len =? 2 then
    o <- getattr "opcode" (opcode self) ;;
    struct_pack_H (Z.lor o 0x8000)
  else if opcode_len =? 1 then
    o <- getattr "opcode" (opcode self) ;;
    struct_pack_B o
  else
    Raise NotImplementedError.

End Opcode.

(** ** [class ModelIdentifier] *)

Module ModelIdentifier.

(** Both slots are assigned by [__init__]; [company_id] holds [None] or
    an integer, [model_id] the model number. *)
Record t : Type := mk { company_id : pyobj; model_id : Z }.

Definition __init__ (model_id : Z) (company_id : pyobj) : t :=
  mk company_id model_id.

(** [STRUCT = struct.Struct("<HH")] *)
Definition from_bytes (b : bytes) : result t :=
  p <- struct_unpack_HH b ;;
  let '(company_id, model_id) := p in
  Ok (__init__ model_id (PyInt company_id)).

Section WithModelID.

(** [self.model_id.to_bytes()]: the method of the model number's own class
    ([ModelID] inherits it from [U16] in [mesh.py]). *)
Variable model_id_to_bytes : Z -> result bytes.

Definition to_bytes (self : t) : result bytes :=
  if truthy (company_id self) then
    struct_pack_HH (company_id self) (model_id self)
  else
    model_id_to_bytes (model_id self).

End WithModelID.

End ModelIdentifier.

(** ** [class AccessPayload] *)

Module AccessPayload.

Definition MAX_SIZE : Z := 380.

(** The third slot, [big_mic], is never assigned and never read. *)
Record t : Type := mk { opcode : Opcode.t; parameters : bytes }.

Definition __init__ (opcode : Opcode.t) (parameters : bytes) : result t :=
  if len parameters >? MAX_SIZE then
    Raise (OverflowError "access payload too big")
  else
    Ok (mk opcode parameters).

Definition __len__ (self : t) : result Z :=
  n <- Opcode.__len__ (opcode self) ;;
  Ok (n + len (parameters self)).

Definition to_bytes (self : t) : result bytes :=
  head <- Opcode.as_bytes (opcode self) ;;
  Ok (head ++ parameters self).

Definition from_bytes (b : bytes) : result t :=
  opcode <- Opcode.from_bytes b ;;
  n <- Opcode.__len__ opcode ;;
  __init__ opcode (slice_from b (Z.to_nat n)).

End AccessPayload.

(** ** The structured record ([DictValue]) *)

Inductive jval : Type :=
| JNone
| JInt (z : Z)
| JBool (b : bool)
| JStr (s : string).

Definition DictValue := list (string * jval).

(** [d[k]] *)
Fixpoint dict_getitem (d : DictValue) (k : string) : result jval :=
  match d with
  | [] => Raise (KeyError k)
  | (k', v) :: rest => if String.eqb k k' then Ok v else dict_getitem rest k
  end.

(** [d.get(k)] *)
Definition dict_get (d : DictValue) (k : string) : jval :=
  match dict_getitem d k with
  | Ok v => v
  | Raise _ => JNone
  end.

(** [v is int]: identity with the class object [int].  Every value a
    record holds is data, and no datum is that class. *)
Definition is_class_int (v : jval) : bool := false.

(** [bytes.hex()] *)
Definition hex_digit (n : Z) : ascii :=
  match n with
  | 0 => "0" | 1 => "1" | 2 => "2" | 3 => "3" | 4 => "4" | 5 => "5"
  | 6 => "6" | 7 => "7" | 8 => "8" | 9 => "9" | 10 => "a" | 11 => "b"
  | 12 => "c" | 13 => "d" | 14 => "e" | _ => "f"
  end%char.

Fixpoint hex (b : bytes) : string :=
  match b with
  | [] => EmptyString
  | x :: rest => String (hex_digit (x / 16)) (String (hex_digit (x mod 16)) (hex rest))
  end.

(** [bytes.fromhex(s)]: pairs of hexadecimal digits of either case, with
    ASCII whitespace allowed between pairs; anything else is a
    [ValueError], and an argument that is not a string a [TypeError]. *)
Definition hex_value (c : ascii) : option Z :=
  let n := Z.of_nat (nat_of_ascii c) in
  if (48 <=? n) && (n <=? 57) then Some (n - 48)
  else if (97 <=? n) && (n <=? 102) then Some (n - 87)
  else if (65 <=? n) && (n <=? 70) then Some (n - 55)
  else None.

Definition option_Z_eqb (a : option Z) (n : Z) : bool :=
  match a with Some m => m =? n | None => false end.

Definition is_space (c : ascii) : bool :=
  let n := Z.of_nat (nat_of_ascii c) in
  (n =? 32) || ((9 <=? n) && (n <=? 13)).

Fixpoint fromhex (s : string) : result bytes :=
  match s with
  | EmptyString => Ok []
  | String c rest =>
      if is_space c then fromhex rest
      else
        match hex_value c, rest with
        | Some hi, String c' rest' =>
            match hex_value c' with
            | Some lo => tail <- fromhex rest' ;; Ok (hi * 16 + lo :: tail)
            | None => Raise (ValueError "non-hexadecimal number found in fromhex() arg")
            end
        | _, _ => Raise (ValueError "non-hexadecimal number found in fromhex() arg")
        end
  end.

Definition bytes_fromhex (v : jval) : result bytes :=
  match v with
  | JStr s => fromhex s
  | _ => Raise TypeError
  end.

(** ** What [from .mesh import *] provides

    [bt_mesh/mesh.py] supplies the address, TTL and key-index classes, the
    [from_bytes_hex] class method that [Opcode] inherits from
    [ByteSerializable], and nothing that this module defines itself.  The
    development is parametric in them. *)

Class Mesh : Type := {
  Address : Type;
  TTL : Type;
  AppKeyIndex : Type;
  NetKeyIndex : Type;
  Address_value : Address -> Z;
  TTL_value : TTL -> Z;
  AppKeyIndex_value : AppKeyIndex -> Z;
  NetKeyIndex_value : NetKeyIndex -> Z;
  (** truth value of an [AppKeyIndex] object *)
  AppKeyIndex_bool : AppKeyIndex -> bool;
  UnicastAddress_from_int : jval -> result Address;
  Address_from_int : jval -> result Address;
  TTL_new : jval -> result TTL;
  NetKeyIndex_new : jval -> result NetKeyIndex;
  AppKeyIndex_new : jval -> result AppKeyIndex;
  Opcode_from_bytes_hex : jval -> result Opcode.t
}.

(** ** [class AccessMessage] *)

Module AccessMessage.
Section WithMesh.

Context {mesh : Mesh}.

(** [__init__] assigns every slot; [appkey_index] is [None] or an
    [AppKeyIndex]. *)
Record t : Type := mk {
  src : Address;
  dst : Address;
  ttl : TTL;
  opcode : Opcode.t;
  payload : bytes;
  appkey_index : option AppKeyIndex;
  netkey_index : NetKeyIndex;
  big_mic : bool;
  local_device_key : bool;
  remote_device_key : bool;
  force_segment : bool
}.

Definition is_not_None {A : Type} (v : option A) : bool :=
  match v with Some _ => true | None => false end.

Definition __init__ (src dst : Address) (ttl : TTL) (opcode : Opcode.t)
    (payload : bytes) (appkey_index : option AppKeyIndex)
    (netkey_index : NetKeyIndex)
    (big_mic local_device_key remote_device_key force_segment : bool)
    : result t :=
  if negb (negb (local_device_key && remote_device_key)) then
    Raise AssertionError
  else if (local_device_key || remote_device_key) && is_not_None appkey_index then
    Raise (ValueError "device key True but also given an appkey_index")
  else
    Ok (mk src dst ttl opcode payload appkey_index netkey_index
           big_mic local_device_key remote_device_key force_segment).

Definition device_key (self : t) : bool :=
  remote_device_key self || remote_device_key self.

Definition access_payload (self : t) : result AccessPayload.t :=
  AccessPayload.__init__ (opcode self) (payload self).

Definition to_dict (self : t) : result DictValue :=
  head <- Opcode.as_bytes (opcode self) ;;
  Ok [ ("src", JInt (Address_value (src self)));
       ("dst", JInt (Address_value (dst self)));
       ("ttl", JInt (TTL_value (ttl self)));
       ("opcode", JStr (hex head));
       ("payload", JStr (hex (payload self)));
       ("netkey_index", JInt (NetKeyIndex_value (netkey_index self)));
       ("appkey_index",
          match appkey_index self with
          | Some k => if AppKeyIndex_bool k then JInt (AppKeyIndex_value k) else JNone
          | None => JNone
          end);
       ("big_mic", JBool (big_mic self));
       ("local_device_key", JBool (local_device_key self));
       ("remote_device_key", JBool (remote_device_key self));
       ("force_seg", JBool (force_segment self)) ]%string.

(** The body binds seven locals and ends; a call that raises nothing
    evaluates to [None] (here: [Ok None]). *)
Definition from_dict (d : DictValue) : result (option t) :=
  v <- dict_getitem d "src" ;;
  src <- UnicastAddress_from_int v ;;
  v <- dict_getitem d "dst" ;;
  dst <- Address_from_int v ;;
  v <- dict_getitem d "ttl" ;;
  ttl <- TTL_new v ;;
  v <- dict_getitem d "opcode" ;;
  opcode <- Opcode_from_bytes_hex v ;;
  v <- dict_getitem d "payload" ;;
  payload <- bytes_fromhex v ;;
  v <- dict_getitem d "netkey_index" ;;
  netkey_index <- NetKeyIndex_new v ;;
  appkey_index <-
    (if is_class_int (dict_get d "appkey_index") then
       v <- dict_getitem d "appkey_index" ;;
       k <- AppKeyIndex_new v ;;
       Ok (Some k)
     else Ok None) ;;
  Ok None.

End WithMesh.
End AccessMessage.

(** ** A stand-in for [mesh.py] to run examples

    Modelled from the spec: the address, TTL and key-index classes of
    [mesh.py], which the record emits "as their underlying numeric value"
    and reads back "from their numeric values", each taken as a wrapper of
    its integer; and [from_bytes_hex], which "parses [opcode] from hex",
    taken as [from_bytes] after [bytes.fromhex]. *)

Definition int_of_jval (v : jval) : result Z :=
  match v with
  | JInt z => Ok z
  | _ => Raise TypeError
  end.

#[local] Instance IntMesh : Mesh := {|
  Address := Z;
  TTL := Z;
  AppKeyIndex := Z;
  NetKeyIndex := Z;
  Address_value := fun a => a;
  TTL_value := fun a => a;
  AppKeyIndex_value := fun a => a;
  NetKeyIndex_value := fun a => a;
  AppKeyIndex_bool := fun _ => true;
  UnicastAddress_from_int := int_of_jval;
  Address_from_int := int_of_jval;
  TTL_new := int_of_jval;
  NetKeyIndex_new := int_of_jval;
  AppKeyIndex_new := int_of_jval;
  Opcode_from_bytes_hex := fun v => b <- bytes_fromhex v ;; Opcode.from_bytes b
|}.

(** [Opcode(opcode=0x10, company_id=0x0059)] *)
Definition vendor_0x10_0x0059 : Opcode.t := Opcode.mk (Some 0x10) (Some (PyInt 0x0059)).

(** The record of an application-key message to a group address. *)
Definition record_appkey_group : DictValue :=
  [ ("src", JInt 1); ("dst", JInt 0xC000); ("ttl", JInt 5);
    ("opcode", JStr "d05900"); ("payload", JStr "01ff");
    ("netkey_index", JInt 0); ("appkey_index", JInt 1);
    ("big_mic", JBool false); ("local_device_key", JBool false);
    ("remote_device_key", JBool false); ("force_seg", JBool false) ]%string.

(** * Properties *)

(** ** Bytes and bit patterns *)

Lemma below_cases (k : nat) (P : Z -> bool) :
  forallb P (map Z.of_nat (seq 0 k)) = true ->
  forall x, 0 <= x < Z.of_nat k -> P x = true.
Proof.
  intros Hall x [Hlo Hhi].
  rewrite forallb_forall in Hall. apply Hall.
  apply in_map_iff. exists (Z.to_nat x). split.
  - lia.
  - apply in_seq. lia.
Qed.

Lemma byte_cases (P : Z -> bool) :
  forallb P (map Z.of_nat (seq 0 256)) = true ->
  forall x, is_byte x -> P x = true.
Proof. intros Hall x Hx. apply (below_cases 256 P Hall). exact Hx. Qed.

Lemma top_bits_10 b0 : is_byte b0 -> Z.shiftr b0 6 = 2 -> Z.land b0 0xC0 = 0x80.
Proof.
  intros Hb Hs.
  pose proof (byte_cases
    (fun x => negb (Z.shiftr x 6 =? 2) || (Z.land x 0xC0 =? 0x80))
    eq_refl b0 Hb) as H.
  cbv beta in H. rewrite Hs in H. simpl in H. lia.
Qed.

Lemma top_bits_11 b0 : is_byte b0 -> Z.shiftr b0 6 = 3 -> Z.land b0 0xC0 = 0xC0.
Proof.
  intros Hb Hs.
  pose proof (byte_cases
    (fun x => negb (Z.shiftr x 6 =? 3) || (Z.land x 0xC0 =? 0xC0))
    eq_refl b0 Hb) as H.
  cbv beta in H. rewrite Hs in H. simpl in H. lia.
Qed.

Lemma marker_10_lor b1 : is_byte b1 -> Z.lor 0x8000 b1 = 0x8000 + b1.
Proof.
  intros Hb.
  pose proof (byte_cases (fun x => Z.lor 0x8000 x =? 0x8000 + x) eq_refl b1 Hb) as H.
  cbv beta in H. lia.
Qed.

Lemma vendor_first_byte o : 0 <= o < 64 -> Z.shiftr (Z.lor o 0xC0) 6 = 3.
Proof.
  intros Ho.
  rewrite Z.shiftr_lor, (Z.shiftr_div_pow2 o 6) by lia.
  rewrite Z.div_small by (change (2 ^ 6) with 64; lia).
  reflexivity.
Qed.

Lemma u8_ok_lor_nonneg o m : 0 <= m -> u8_ok (Z.lor o m) = true -> 0 <= o.
Proof.
  unfold u8_ok. intros Hm H.
  apply andb_true_iff in H. destruct H as [H _].
  apply Z.leb_le in H. apply Z.lor_nonneg in H. tauto.
Qed.

(** ** Construction of opcodes *)

Lemma Opcode_init_plain op o :
  Opcode.__init__ op PyNone = Ok o -> o = Opcode.mk (Some op) None.
Proof.
  unfold Opcode.__init__. simpl.
  destruct (op <? 127); [intros [= <-]; reflexivity|].
  destruct ((127 <? op) && (op <? 0xC000)); [intros [= <-]; reflexivity|].
  discriminate.
Qed.

Lemma Opcode_init_plain_ok op :
  is_ok (Opcode.__init__ op PyNone) = (op <? 127) || ((127 <? op) && (op <? 0xC000)).
Proof.
  unfold Opcode.__init__. simpl.
  destruct (op <? 127); [reflexivity|].
  destruct ((127 <? op) && (op <? 0xC000)); reflexivity.
Qed.

Lemma Opcode_init_vendor op c :
  Opcode.__init__ op (PyInt c) =
  Ok (if (c <? 0xFFFF) && (op <? 64)
      then Opcode.mk (Some op) (Some (PyInt c))
      else Opcode.new).
Proof.
  unfold Opcode.__init__. simpl.
  destruct ((c <? 0xFFFF) && (op <? 64)); reflexivity.
Qed.

Lemma Opcode_init_tuple op items :
  Opcode.__init__ op (PyTuple items) = Raise TypeError.
Proof. reflexivity. Qed.

Lemma Opcode_len_unassigned o :
  Opcode.company_id o = None ->
  Opcode.__len__ o = Raise (AttributeError "company_id").
Proof. unfold Opcode.__len__. intros ->. reflexivity. Qed.

Lemma Opcode_as_bytes_unassigned o :
  Opcode.company_id o = None ->
  Opcode.as_bytes o = Raise (AttributeError "company_id").
Proof.
  intros H. unfold Opcode.as_bytes. rewrite (Opcode_len_unassigned o H). reflexivity.
Qed.

Lemma Opcode_as_bytes_vendor op c :
  Opcode.as_bytes (Opcode.mk (Some op) (Some (PyInt c))) =
  struct_pack_BH (Z.lor op 0xC0) (PyInt c).
Proof. reflexivity. Qed.

(** Decoding anything that starts with a vendor first byte and has two
    more bytes stops in the constructor, which is handed a tuple. *)
Lemma Opcode_from_bytes_vendor o lo hi rest :
  0 <= o < 64 ->
  Opcode.from_bytes (Z.lor o 0xC0 :: lo :: hi :: rest) = Raise TypeError.
Proof.
  intros Ho. unfold Opcode.from_bytes, bind.
  change (getitem (Z.lor o 0xC0 :: lo :: hi :: rest) 0) with (Ok (Z.lor o 0xC0)).
  cbv beta iota. rewrite (vendor_first_byte o Ho). reflexivity.
Qed.

Lemma Opcode_len_as_bytes o b :
  Opcode.as_bytes o = Ok b -> Opcode.__len__ o = Ok (len b).
Proof.
  unfold Opcode.as_bytes.
  destruct (Opcode.__len__ o) as [n|e]; [|discriminate]. simpl.
  destruct (n =? 3) eqn:E3.
  - apply Z.eqb_eq in E3. subst n.
    destruct (Opcode.opcode o) as [v|]; [|discriminate].
    destruct (Opcode.company_id o) as [[|c|items]|]; try discriminate. simpl.
    destruct (u8_ok (Z.lor v 192) && u16_ok c); [|discriminate].
    intros [= <-]. reflexivity.
  - destruct (n =? 2) eqn:E2.
    + apply Z.eqb_eq in E2. subst n.
      destruct (Opcode.opcode o) as [v|]; [|discriminate]. simpl.
      unfold struct_pack_H. destruct (u16_ok (Z.lor v 32768)); [|discriminate].
      intros [= <-]. reflexivity.
    + destruct (n =? 1) eqn:E1; [|discriminate].
      apply Z.eqb_eq in E1. subst n.
      destruct (Opcode.opcode o) as [v|]; [|discriminate]. simpl.
      unfold struct_pack_B. destruct (u8_ok v); [|discriminate].
      intros [= <-]. reflexivity.
Qed.

(** The three bytes a vendor opcode is packed into, when it is packed. *)
Lemma Opcode_as_bytes_vendor_shape op c b :
  Opcode.as_bytes (Opcode.mk (Some op) (Some (PyInt c))) = Ok b ->
  0 <= op /\ b = [Z.lor op 0xC0; Z.land c 0xFF; Z.shiftr c 8].
Proof.
  rewrite Opcode_as_bytes_vendor. unfold struct_pack_BH.
  destruct (u8_ok (Z.lor op 0xC0)) eqn:E8; [|discriminate].
  destruct (u16_ok c); [|discriminate]. simpl.
  intros [= <-]. split; [|reflexivity].
  apply (u8_ok_lor_nonneg op 0xC0); [lia|exact E8].
Qed.

(** ** The opcode codec *)

(** C1 (as the code has it).  No opcode that the constructor returns
    survives encoding followed by decoding: for every constructed opcode
    [as_bytes] followed by [from_bytes] raises, so [decode(encode(o))]
    never yields [o].  Opcodes without a company id already fail in
    [as_bytes] (their [company_id] slot was never assigned), vendor opcodes
    encode to three bytes and fail in [from_bytes], which passes the tuple
    returned by [struct.unpack] to the constructor. *)
Theorem Opcode_roundtrip_raises op cid o :
  Opcode.__init__ op cid = Ok o ->
  exists e, (b <- Opcode.as_bytes o ;; Opcode.from_bytes b) = Raise e.
Proof.
  destruct cid as [|c|items].
  - intros H. apply Opcode_init_plain in H. subst o.
    rewrite Opcode_as_bytes_unassigned by reflexivity. simpl. eauto.
  - rewrite Opcode_init_vendor. intros [= <-].
    destruct ((c <? 0xFFFF) && (op <? 64)) eqn:E.
    + apply andb_true_iff in E. destruct E as [_ E]. apply Z.ltb_lt in E.
      destruct (Opcode.as_bytes (Opcode.mk (Some op) (Some (PyInt c)))) as [b|e] eqn:Eb.
      * apply Opcode_as_bytes_vendor_shape in Eb. destruct Eb as [Hop ->].
        simpl bind. rewrite Opcode_from_bytes_vendor by lia. eauto.
      * simpl. eauto.
    + rewrite Opcode_as_bytes_unassigned by reflexivity. simpl. eauto.
  - rewrite Opcode_init_tuple. discriminate.
Qed.

Lemma Opcode_roundtrip_raises_witness :
  Opcode.__init__ 0x10 (PyInt 0x0059) = Ok (Opcode.mk (Some 0x10) (Some (PyInt 0x0059))) /\
  exists e,
    (b <- Opcode.as_bytes (Opcode.mk (Some 0x10) (Some (PyInt 0x0059))) ;;
     Opcode.from_bytes b) = Raise e.
Proof.
  split; [reflexivity|].
  apply (Opcode_roundtrip_raises 0x10 (PyInt 0x0059)). reflexivity.
Defined.

Example Opcode_roundtrip_vendor_0x10_0x0059 :
  (o <- Opcode.__init__ 0x10 (PyInt 0x0059) ;;
   b <- Opcode.as_bytes o ;;
   Opcode.from_bytes b) = Raise TypeError.
Proof. reflexivity. Qed.

(** C4 (as the code has it).  A vendor opcode is packed as the byte
    [opcode | 0xC0] followed by the company id, low byte first.  An opcode
    built without a company id is not packed at all: [as_bytes] raises
    [AttributeError] when [__len__] reads the unassigned [company_id]
    slot.  The two-octet branch, reached only by an object whose
    [company_id] slot holds [None], packs [opcode | 0x8000] with format
    [<H], low byte first: 0x0201 gives 01 82, not 82 01. *)
Theorem Opcode_as_bytes_wire op c plain o :
  0 <= op < 64 -> 0 <= c < 0xFFFF ->
  Opcode.__init__ plain PyNone = Ok o ->
  (v <- Opcode.__init__ op (PyInt c) ;; Opcode.as_bytes v)
    = Ok [Z.lor op 0xC0; Z.land c 0xFF; Z.shiftr c 8] /\
  Opcode.as_bytes o = Raise (AttributeError "company_id") /\
  Opcode.as_bytes (Opcode.mk (Some 0x0201) (Some PyNone)) = Ok [0x01; 0x82].
Proof.
  intros Hop Hc Ho. split; [|split].
  - rewrite Opcode_init_vendor.
    replace ((c <? 0xFFFF) && (op <? 64)) with true
      by (symmetry; apply andb_true_iff; split; apply Z.ltb_lt; lia).
    simpl bind. rewrite Opcode_as_bytes_vendor. unfold struct_pack_BH.
    assert (H8 : u8_ok (Z.lor op 0xC0) = true).
    { pose proof (byte_cases
        (fun x => negb (x <? 64) || u8_ok (Z.lor x 0xC0)) eq_refl op) as H.
      cbv beta in H. unfold is_byte in H.
      replace (op <? 64) with true in H by (symmetry; apply Z.ltb_lt; lia).
      apply H. lia. }
    assert (H16 : u16_ok c = true).
    { unfold u16_ok. apply andb_true_iff. split; apply Z.leb_le; lia. }
    rewrite H8, H16. reflexivity.
  - apply Opcode_init_plain in Ho. subst o.
    apply Opcode_as_bytes_unassigned. reflexivity.
  - reflexivity.
Qed.

Lemma Opcode_as_bytes_wire_witness :
  (v <- Opcode.__init__ 0x10 (PyInt 0x0059) ;; Opcode.as_bytes v)
    = Ok [Z.lor 0x10 0xC0; Z.land 0x0059 0xFF; Z.shiftr 0x0059 8] /\
  Opcode.as_bytes (Opcode.mk (Some 0x01) None) = Raise (AttributeError "company_id") /\
  Opcode.as_bytes (Opcode.mk (Some 0x0201) (Some PyNone)) = Ok [0x01; 0x82].
Proof.
  apply (Opcode_as_bytes_wire 0x10 0x0059 0x01); [lia | lia | reflexivity].
Defined.

Example Opcode_as_bytes_0x01 :
  (o <- Opcode.__init__ 0x01 PyNone ;; Opcode.as_bytes o)
    = Raise (AttributeError "company_id").
Proof. reflexivity. Qed.

Example Opcode_as_bytes_0x10_0x0059 :
  (o <- Opcode.__init__ 0x10 (PyInt 0x0059) ;; Opcode.as_bytes o)
    = Ok [0xD0; 0x59; 0x00].
Proof. reflexivity. Qed.

(** C5 (as the code has it).  [from_bytes] masks the first byte with 0xC0
    and so keeps its top two bits, not its low six.  For a first byte of
    class 10 the decoded value is [0x8000 | b1], whatever the low six bits
    of the first byte are; for a first byte of class 11 followed by two
    more bytes decoding raises [TypeError], because the constructor
    compares the tuple from [struct.unpack] with an integer. *)
Theorem Opcode_from_bytes_classes a0 c0 b1 :
  is_byte a0 -> Z.shiftr a0 6 = 2 ->
  is_byte c0 -> Z.shiftr c0 6 = 3 ->
  is_byte b1 ->
  (forall rest,
      Opcode.from_bytes (a0 :: b1 :: rest) = Ok (Opcode.mk (Some (Z.lor 0x8000 b1)) None)) /\
  (forall b2 rest,
      Opcode.from_bytes (c0 :: b1 :: b2 :: rest) = Raise TypeError).
Proof.
  intros Ha Hsa Hc Hsc Hb. split.
  - intros rest. unfold Opcode.from_bytes, bind.
    change (getitem (a0 :: b1 :: rest) 0) with (Ok a0).
    change (getitem (a0 :: b1 :: rest) 1) with (Ok b1).
    cbv beta iota. rewrite Hsa, (top_bits_10 a0 Ha Hsa).
    change (Z.shiftl 128 8) with 0x8000.
    change (2 <? 2) with false. change (2 =? 3) with false. change (2 =? 2) with true.
    cbv beta iota.
    unfold Opcode.__init__. simpl is_None. cbv beta iota zeta.
    rewrite (marker_10_lor b1 Hb). destruct Hb as [Hlo Hhi].
    replace (0x8000 + b1 <? 127) with false by (symmetry; apply Z.ltb_ge; lia).
    replace ((127 <? 0x8000 + b1) && (0x8000 + b1 <? 0xC000)) with true
      by (symmetry; apply andb_true_iff; split; apply Z.ltb_lt; lia).
    reflexivity.
  - intros b2 rest. unfold Opcode.from_bytes, bind.
    change (getitem (c0 :: b1 :: b2 :: rest) 0) with (Ok c0).
    cbv beta iota. rewrite Hsc. reflexivity.
Qed.

Lemma Opcode_from_bytes_classes_witness :
  (forall rest,
      Opcode.from_bytes (0x82 :: 0x01 :: rest) = Ok (Opcode.mk (Some (Z.lor 0x8000 0x01)) None)) /\
  (forall b2 rest,
      Opcode.from_bytes (0xD0 :: 0x01 :: b2 :: rest) = Raise TypeError).
Proof.
  apply (Opcode_from_bytes_classes 0x82 0xD0 0x01);
    solve [unfold is_byte; lia | reflexivity].
Defined.

Example Opcode_from_bytes_82_01 :
  Opcode.from_bytes [0x82; 0x01] = Ok (Opcode.mk (Some 0x8001) None).
Proof. reflexivity. Qed.

Example Opcode_from_bytes_D0_59_00 :
  Opcode.from_bytes [0xD0; 0x59; 0x00] = Raise TypeError.
Proof. reflexivity. Qed.

(** C6 (as the code has it).  [__len__] is 3 for a vendor opcode.  For
    every opcode built without a company id, whatever its value, both
    [__len__] and [as_bytes] raise [AttributeError]: the constructor never
    assigns the [company_id] slot that [__len__] reads first, so the
    answers 1 and 2 are never returned. *)
Theorem Opcode_len_cases op c plain o :
  c < 0xFFFF -> op < 64 ->
  Opcode.__init__ plain PyNone = Ok o ->
  (v <- Opcode.__init__ op (PyInt c) ;; Opcode.__len__ v) = Ok 3 /\
  Opcode.__len__ o = Raise (AttributeError "company_id") /\
  Opcode.as_bytes o = Raise (AttributeError "company_id").
Proof.
  intros Hc Hop Ho. split; [|split].
  - rewrite Opcode_init_vendor.
    replace ((c <? 0xFFFF) && (op <? 64)) with true
      by (symmetry; apply andb_true_iff; split; apply Z.ltb_lt; lia).
    reflexivity.
  - apply Opcode_init_plain in Ho. subst o. reflexivity.
  - apply Opcode_init_plain in Ho. subst o. reflexivity.
Qed.

Lemma Opcode_len_cases_witness :
  (v <- Opcode.__init__ 0x10 (PyInt 0x0059) ;; Opcode.__len__ v) = Ok 3 /\
  Opcode.__len__ (Opcode.mk (Some 0x01) None) = Raise (AttributeError "company_id") /\
  Opcode.as_bytes (Opcode.mk (Some 0x01) None) = Raise (AttributeError "company_id").
Proof.
  apply (Opcode_len_cases 0x10 0x0059 0x01); [lia | lia | reflexivity].
Defined.

Example Opcode_len_0x01 :
  (o <- Opcode.__init__ 0x01 PyNone ;; Opcode.__len__ o)
    = Raise (AttributeError "company_id").
Proof. reflexivity. Qed.

Example Opcode_len_0x0201 :
  (o <- Opcode.__init__ 0x0201 PyNone ;; Opcode.__len__ o)
    = Raise (AttributeError "company_id").
Proof. reflexivity. Qed.

(** C9 (as the code has it).  Without a company id, the value 0x7F and
    every value from 0xC000 on are refused with [ValueError].  With a
    company id nothing is refused: when the opcode is 64 or more, or the
    company id 0xFFFF or more, the constructor raises nothing and returns
    an object none of whose slots is assigned. *)
Theorem Opcode_init_invalid op c plain :
  64 <= op \/ 0xFFFF <= c ->
  plain = 0x7F \/ 0xC000 <= plain ->
  Opcode.__init__ op (PyInt c) = Ok Opcode.new /\
  Opcode.__init__ plain PyNone = Raise (ValueError "invalid opcode").
Proof.
  intros Hv Hp. split.
  - rewrite Opcode_init_vendor.
    replace ((c <? 0xFFFF) && (op <? 64)) with false; [reflexivity|].
    symmetry. apply andb_false_iff.
    destruct Hv; [right | left]; apply Z.ltb_ge; lia.
  - unfold Opcode.__init__. simpl is_None. cbv beta iota zeta.
    replace (plain <? 127) with false by (symmetry; apply Z.ltb_ge; lia).
    replace ((127 <? plain) && (plain <? 0xC000)) with false; [reflexivity|].
    symmetry. apply andb_false_iff.
    destruct Hp; [left | right]; apply Z.ltb_ge; lia.
Qed.

Lemma Opcode_init_invalid_witness :
  Opcode.__init__ 64 (PyInt 0x0059) = Ok Opcode.new /\
  Opcode.__init__ 0x7F PyNone = Raise (ValueError "invalid opcode").
Proof.
  apply (Opcode_init_invalid 64 0x0059 0x7F); left; [lia | reflexivity].
Defined.

Example Opcode_init_company_0xFFFF :
  Opcode.__init__ 0x10 (PyInt 0xFFFF) = Ok Opcode.new.
Proof. reflexivity. Qed.

(** ** The model identifier codec *)

(** C10 (as the code has it).  [from_bytes] unpacks with the one format
    [<HH]: every four-byte input gives the company id and then the model
    id, both low byte first, and every two-byte input raises
    [struct.error]; no input gives a model without a company id. *)
Theorem ModelIdentifier_from_bytes_widths :
  (forall c0 c1 m0 m1,
      ModelIdentifier.from_bytes [c0; c1; m0; m1]
      = Ok (ModelIdentifier.mk (PyInt (of_le16 c0 c1)) (of_le16 m0 m1))) /\
  (forall m0 m1, ModelIdentifier.from_bytes [m0; m1] = Raise StructError) /\
  (forall b m, ModelIdentifier.from_bytes b = Ok m ->
               ModelIdentifier.company_id m <> PyNone).
Proof.
  split; [|split].
  - reflexivity.
  - reflexivity.
  - intros b m. unfold ModelIdentifier.from_bytes.
    destruct (struct_unpack_HH b) as [[c v]|e]; simpl; [|discriminate].
    intros [= <-]. simpl. discriminate.
Qed.

Example ModelIdentifier_from_bytes_00_10 :
  ModelIdentifier.from_bytes [0x00; 0x10] = Raise StructError.
Proof. reflexivity. Qed.

Example ModelIdentifier_from_bytes_59_00_34_12 :
  ModelIdentifier.from_bytes [0x59; 0x00; 0x34; 0x12]
  = Ok (ModelIdentifier.mk (PyInt 0x0059) 0x1234).
Proof. reflexivity. Qed.

(** ** The access payload codec *)

Lemma AccessPayload_init_ok o params :
  is_ok (AccessPayload.__init__ o params) = (len params <=? 380).
Proof.
  unfold AccessPayload.__init__, AccessPayload.MAX_SIZE.
  rewrite Z.gtb_ltb.
  destruct (380 <? len params) eqn:E; simpl; symmetry.
  - apply Z.leb_gt. apply Z.ltb_lt in E. exact E.
  - apply Z.leb_le. apply Z.ltb_ge in E. exact E.
Qed.

Lemma AccessPayload_roundtrip_raises op cid o params :
  Opcode.__init__ op cid = Ok o ->
  exists e,
    (b <- AccessPayload.to_bytes (AccessPayload.mk o params) ;;
     AccessPayload.from_bytes b) = Raise e.
Proof.
  unfold AccessPayload.to_bytes. simpl AccessPayload.opcode. simpl AccessPayload.parameters.
  destruct cid as [|c|items].
  - intros H. apply Opcode_init_plain in H. subst o.
    rewrite Opcode_as_bytes_unassigned by reflexivity. simpl. eauto.
  - rewrite Opcode_init_vendor. intros [= <-].
    destruct ((c <? 0xFFFF) && (op <? 64)) eqn:E.
    + apply andb_true_iff in E. destruct E as [_ E]. apply Z.ltb_lt in E.
      destruct (Opcode.as_bytes (Opcode.mk (Some op) (Some (PyInt c)))) as [b|e] eqn:Eb.
      * apply Opcode_as_bytes_vendor_shape in Eb. destruct Eb as [Hop ->].
        simpl bind. unfold AccessPayload.from_bytes.
        rewrite Opcode_from_bytes_vendor by lia. simpl. eauto.
      * simpl. eauto.
    + rewrite Opcode_as_bytes_unassigned by reflexivity. simpl. eauto.
  - rewrite Opcode_init_tuple. discriminate.
Qed.

(** C8 (as the code has it).  Construction of a payload fails, with
    [OverflowError], exactly when there are more than 380 parameter
    bytes.  A payload that was constructed, of 380 parameter bytes or of
    any other size, does not come back from [to_bytes] followed by
    [from_bytes]: the pair raises for every opcode the constructor
    returns. *)
Theorem AccessPayload_size_and_roundtrip op cid o params :
  Opcode.__init__ op cid = Ok o ->
  (380 < len params ->
     AccessPayload.__init__ o params = Raise (OverflowError "access payload too big")) /\
  (len params <= 380 ->
     AccessPayload.__init__ o params = Ok (AccessPayload.mk o params) /\
     exists e,
       (p <- AccessPayload.__init__ o params ;;
        b <- AccessPayload.to_bytes p ;;
        AccessPayload.from_bytes b) = Raise e).
Proof.
  intros Ho.
  unfold AccessPayload.__init__ at 1 2 3, AccessPayload.MAX_SIZE.
  rewrite Z.gtb_ltb. split.
  - intros H. apply Z.ltb_lt in H. rewrite H. reflexivity.
  - intros H. apply Z.ltb_ge in H. rewrite H. split; [reflexivity|].
    simpl bind. exact (AccessPayload_roundtrip_raises op cid o params Ho).
Qed.

Lemma AccessPayload_size_and_roundtrip_witness :
  let o := Opcode.mk (Some 0x10) (Some (PyInt 0x0059)) in
  let params := repeat 0 380 in
  AccessPayload.__init__ o params = Ok (AccessPayload.mk o params) /\
  exists e,
    (p <- AccessPayload.__init__ o params ;;
     b <- AccessPayload.to_bytes p ;;
     AccessPayload.from_bytes b) = Raise e.
Proof.
  intros o params.
  apply (AccessPayload_size_and_roundtrip 0x10 (PyInt 0x0059) o params).
  - reflexivity.
  - vm_compute. discriminate.
Defined.

Example AccessPayload_380_bytes :
  (o <- Opcode.__init__ 0x10 (PyInt 0x0059) ;;
   p <- AccessPayload.__init__ o (repeat 0 380) ;;
   b <- AccessPayload.to_bytes p ;;
   AccessPayload.from_bytes b) = Raise TypeError.
Proof. vm_compute. reflexivity. Qed.

Example AccessPayload_381_bytes :
  (o <- Opcode.__init__ 0x10 (PyInt 0x0059) ;;
   AccessPayload.__init__ o (repeat 0 381))
  = Raise (OverflowError "access payload too big").
Proof. vm_compute. reflexivity. Qed.

Example AccessPayload_380_bytes_plain_opcode :
  (o <- Opcode.__init__ 0x01 PyNone ;;
   p <- AccessPayload.__init__ o (repeat 0 380) ;;
   b <- AccessPayload.to_bytes p ;;
   AccessPayload.from_bytes b) = Raise (AttributeError "company_id").
Proof. vm_compute. reflexivity. Qed.

(** ** Access messages *)

Section AccessMessageFacts.

Context {mesh : Mesh}.
Variables (src dst : Address) (ttl : TTL) (opcode : Opcode.t) (payload : bytes).
Variables (netkey_index : NetKeyIndex) (big_mic force_segment : bool).

Let build := AccessMessage.__init__ src dst ttl opcode payload.

(** C2.  Construction fails when both device-key flags are set (the
    [assert] raises [AssertionError]) and when a device-key flag is set
    together with an application-key index ([ValueError], or
    [AssertionError] if both flags are set as well); in every other case
    it succeeds and the message carries the arguments unchanged. *)
Theorem AccessMessage_init_validation
    (appkey_index : option AppKeyIndex) (local_device_key remote_device_key : bool) :
  let r := build appkey_index netkey_index big_mic
                 local_device_key remote_device_key force_segment in
  (local_device_key = true /\ remote_device_key = true -> r = Raise AssertionError) /\
  ((local_device_key = true \/ remote_device_key = true) /\ appkey_index <> None ->
     r = Raise AssertionError \/
     r = Raise (ValueError "device key True but also given an appkey_index")) /\
  (~ (local_device_key = true /\ remote_device_key = true) ->
   ~ ((local_device_key = true \/ remote_device_key = true) /\ appkey_index <> None) ->
     r = Ok (AccessMessage.mk src dst ttl opcode payload appkey_index netkey_index
               big_mic local_device_key remote_device_key force_segment)).
Proof.
  unfold build, AccessMessage.__init__.
  destruct local_device_key, remote_device_key, appkey_index as [k|];
    simpl; repeat split; intros; auto; try tauto; try discriminate;
    try (exfalso; intuition congruence).
Qed.

End AccessMessageFacts.

Lemma AccessMessage_init_validation_witness :
  AccessMessage.__init__ 0x0001 0x0002 5 vendor_0x10_0x0059 [0x01] None 0
    false true true false = Raise AssertionError /\
  AccessMessage.__init__ 0x0001 0x0002 5 vendor_0x10_0x0059 [0x01] (Some 1) 0
    false false true false
    = Raise (ValueError "device key True but also given an appkey_index") /\
  AccessMessage.__init__ 0x0001 0xC000 5 vendor_0x10_0x0059 [0x01] (Some 1) 0
    true false false true
    = Ok (AccessMessage.mk 0x0001 0xC000 5 vendor_0x10_0x0059 [0x01] (Some 1) 0
            true false false true).
Proof.
  split; [|split].
  - apply (AccessMessage_init_validation (mesh := IntMesh)
             0x0001 0x0002 5 vendor_0x10_0x0059 [0x01] 0 false false None true true).
    split; reflexivity.
  - destruct (AccessMessage_init_validation (mesh := IntMesh)
                0x0001 0x0002 5 vendor_0x10_0x0059 [0x01] 0 false false
                (Some 1) false true) as [_ [H _]].
    destruct H as [H | H].
    + split; [right; reflexivity | discriminate].
    + discriminate H.
    + exact H.
  - apply (AccessMessage_init_validation (mesh := IntMesh)
             0x0001 0xC000 5 vendor_0x10_0x0059 [0x01] 0 true true (Some 1) false false).
    + intros [H _]. discriminate H.
    + intros [[H | H] _]; discriminate H.
Defined.

Section AccessMessageDecoding.

Context {mesh : Mesh}.
Variables (src dst : Address) (ttl : TTL) (opcode : Opcode.t) (payload : bytes).
Variables (netkey_index : NetKeyIndex) (big_mic force_segment : bool).

Let build := AccessMessage.__init__ src dst ttl opcode payload.

(** C7 (as the code has it).  [device_key] returns [remote_device_key]:
    the local flag is never consulted, and a message built with
    [local_device_key=True] and [remote_device_key=False] answers
    [False]. *)
Theorem AccessMessage_device_key_remote_only :
  (forall m : AccessMessage.t,
      AccessMessage.device_key m = AccessMessage.remote_device_key m) /\
  (m <- build None netkey_index big_mic true false force_segment ;;
   Ok (AccessMessage.device_key m)) = Ok false.
Proof.
  split.
  - intros m. unfold AccessMessage.device_key. apply orb_diag.
  - reflexivity.
Qed.

(** C3 (as the code has it).  [from_dict] has no [return]: whatever
    record it is given it raises or evaluates to [None], and so does
    [from_dict(to_dict(m))] for every message [m]; no message comes
    back. *)
Theorem AccessMessage_from_dict_no_message :
  (forall d, (exists e, AccessMessage.from_dict d = Raise e) \/
             AccessMessage.from_dict d = Ok None) /\
  (forall m : AccessMessage.t,
      (exists e, (d <- AccessMessage.to_dict m ;; AccessMessage.from_dict d) = Raise e) \/
      (d <- AccessMessage.to_dict m ;; AccessMessage.from_dict d) = Ok None).
Proof.
  assert (Hd : forall d, (exists e, AccessMessage.from_dict d = Raise e) \/
                         AccessMessage.from_dict d = Ok None).
  { intros d. unfold AccessMessage.from_dict, bind, is_class_int.
    repeat match goal with
           | |- context [match ?x with Ok _ => _ | Raise _ => _ end] =>
               destruct x; [|left; eexists; reflexivity]
           end.
    right. reflexivity. }
  split; [exact Hd|].
  intros m. destruct (AccessMessage.to_dict m) as [d|e]; simpl.
  - apply Hd.
  - left. exists e. reflexivity.
Qed.

End AccessMessageDecoding.

(** ** The record of a message, on the stand-in classes *)

Lemma hex_digit_value n : 0 <= n < 16 -> hex_value (hex_digit n) = Some n.
Proof.
  intros H.
  pose proof (below_cases 16
    (fun x => option_Z_eqb (hex_value (hex_digit x)) x) eq_refl n H) as E.
  cbv beta in E. destruct (hex_value (hex_digit n)) as [m|]; simpl in E.
  - f_equal. lia.
  - discriminate.
Qed.

Lemma hex_digit_not_space n : 0 <= n < 16 -> is_space (hex_digit n) = false.
Proof.
  intros H.
  pose proof (below_cases 16 (fun x => negb (is_space (hex_digit x))) eq_refl n H) as E.
  cbv beta in E. destruct (is_space (hex_digit n)); [discriminate|reflexivity].
Qed.

(** [bytes.fromhex(b.hex()) == b] *)
Lemma fromhex_hex b : is_bytes b -> fromhex (hex b) = Ok b.
Proof.
  induction 1 as [|x b Hx Hb IH]; [reflexivity|].
  unfold is_byte in Hx.
  assert (Hq : 0 <= x / 16 < 16)
    by (split; [apply Z.div_pos; lia | apply Z.div_lt_upper_bound; lia]).
  assert (Hr : 0 <= x mod 16 < 16) by (apply Z.mod_pos_bound; lia).
  cbn [hex fromhex].
  rewrite (hex_digit_not_space _ Hq), (hex_digit_value _ Hq), (hex_digit_value _ Hr), IH.
  simpl bind. f_equal. f_equal.
  rewrite (Z.div_mod x 16) at 3 by lia. lia.
Qed.

(** An application-key message to a group address. *)
Example AccessMessage_to_dict_appkey_group :
  (m <- AccessMessage.__init__ 0x0001 0xC000 5 vendor_0x10_0x0059 [0x01; 0xFF]
          (Some 1) 0 false false false false ;;
   AccessMessage.to_dict m)
  = Ok [ ("src", JInt 1); ("dst", JInt 0xC000); ("ttl", JInt 5);
         ("opcode", JStr "d05900"); ("payload", JStr "01ff");
         ("netkey_index", JInt 0); ("appkey_index", JInt 1);
         ("big_mic", JBool false); ("local_device_key", JBool false);
         ("remote_device_key", JBool false); ("force_seg", JBool false) ]%string.
Proof. reflexivity. Qed.

Example AccessMessage_roundtrip_appkey_group :
  (m <- AccessMessage.__init__ 0x0001 0xC000 5 vendor_0x10_0x0059 [0x01; 0xFF]
          (Some 1) 0 false false false false ;;
   d <- AccessMessage.to_dict m ;;
   AccessMessage.from_dict d) = Raise TypeError.
Proof. reflexivity. Qed.

(** A device-key message to a unicast address. *)
Example AccessMessage_roundtrip_devkey_unicast :
  (m <- AccessMessage.__init__ 0x0001 0x0002 5 vendor_0x10_0x0059 [0x01; 0xFF]
          None 0 false false true false ;;
   d <- AccessMessage.to_dict m ;;
   AccessMessage.from_dict d) = Raise TypeError.
Proof. reflexivity. Qed.

(** A message with [big_mic] and [force_segment], and an opcode built
    without a company id: [to_dict] already raises. *)
Example AccessMessage_roundtrip_big_mic_force_segment :
  (o <- Opcode.__init__ 0x01 PyNone ;;
   m <- AccessMessage.__init__ 0x0001 0x0002 5 o [0x01; 0xFF]
          (Some 1) 0 true false false true ;;
   d <- AccessMessage.to_dict m ;;
   AccessMessage.from_dict d) = Raise (AttributeError "company_id").
Proof. reflexivity. Qed.

(** A record whose opcode decodes: the call ends without a value. *)
Example AccessMessage_from_dict_returns_None :
  AccessMessage.from_dict
    [ ("src", JInt 1); ("dst", JInt 0xC000); ("ttl", JInt 5);
      ("opcode", JStr "01"); ("payload", JStr "01ff");
      ("netkey_index", JInt 0); ("appkey_index", JInt 1);
      ("big_mic", JBool false); ("local_device_key", JBool false);
      ("remote_device_key", JBool false); ("force_seg", JBool false) ]%string
  = Ok None.
Proof. reflexivity. Qed.

(** Both flags, and a flag with an application-key index. *)
Example AccessMessage_init_both_flags :
  AccessMessage.__init__ 0x0001 0x0002 5 vendor_0x10_0x0059 [] None 0 false true true false
  = Raise AssertionError.
Proof. reflexivity. Qed.

Example AccessMessage_init_remote_flag_with_appkey :
  AccessMessage.__init__ 0x0001 0x0002 5 vendor_0x10_0x0059 [] (Some 1) 0 false false true false
  = Raise (ValueError "device key True but also given an appkey_index").
Proof. reflexivity. Qed.

(** * Further properties of the codec *)

(** ** Sixteen-bit fields *)

Lemma of_le16_add lo hi : is_byte lo -> of_le16 lo hi = lo + 256 * hi.
Proof.
  intros Hlo. unfold of_le16, is_byte in *.
  assert (Hz : Z.land lo (Z.shiftl hi 8) = 0).
  { rewrite <- (Z.mod_small lo (2 ^ 8)) by (change (2 ^ 8) with 256; lia).
    rewrite <- Z.land_ones by lia.
    rewrite (Z.land_comm lo), Z.land_comm, Z.land_assoc, Z.land_ones by lia.
    rewrite Z.shiftl_mul_pow2 by lia. rewrite Z.mod_mul by (change (2 ^ 8) with 256; lia).
    apply Z.land_0_l. }
  rewrite <- (Z.lxor_lor _ _ Hz), <- (Z.add_nocarry_lxor _ _ Hz).
  rewrite Z.shiftl_mul_pow2 by lia. change (2 ^ 8) with 256. lia.
Qed.

Lemma le16_parts v :
  0 <= v <= 0xFFFF ->
  is_byte (Z.land v 0xFF) /\ is_byte (Z.shiftr v 8) /\
  of_le16 (Z.land v 0xFF) (Z.shiftr v 8) = v.
Proof.
  intros Hv.
  assert (Hl : Z.land v 0xFF = v mod 256)
    by (change 0xFF with (Z.ones 8); rewrite Z.land_ones by lia; reflexivity).
  assert (Hs : Z.shiftr v 8 = v / 256)
    by (rewrite Z.shiftr_div_pow2 by lia; reflexivity).
  rewrite Hl, Hs.
  assert (Hm : 0 <= v mod 256 < 256) by (apply Z.mod_pos_bound; lia).
  assert (Hd : 0 <= v / 256 < 256)
    by (split; [apply Z.div_pos; lia | apply Z.div_lt_upper_bound; lia]).
  repeat split; try (unfold is_byte; lia).
  rewrite of_le16_add by exact Hm.
  rewrite (Z.div_mod v 256) at 3 by lia. lia.
Qed.

Lemma of_le16_range lo hi : is_byte lo -> is_byte hi -> 0 <= of_le16 lo hi <= 0xFFFF.
Proof.
  intros Hlo Hhi. rewrite of_le16_add by exact Hlo. unfold is_byte in *. lia.
Qed.

Lemma le16_of_le16 lo hi :
  is_byte lo -> is_byte hi -> le16 (of_le16 lo hi) = [lo; hi].
Proof.
  intros Hlo Hhi. rewrite of_le16_add by exact Hlo. unfold le16, is_byte in *.
  change 0xFF with (Z.ones 8). rewrite Z.land_ones, Z.shiftr_div_pow2 by lia.
  change (2 ^ 8) with 256.
  replace (lo + 256 * hi) with (lo + hi * 256) by lia.
  rewrite Z.mod_add, Z.div_add by lia.
  rewrite Z.mod_small, Z.div_small by lia. reflexivity.
Qed.

Lemma u16_ok_iff v : u16_ok v = true <-> 0 <= v <= 0xFFFF.
Proof.
  unfold u16_ok. rewrite andb_true_iff, !Z.leb_le. tauto.
Qed.

Lemma vendor_low_bits o : 0 <= o < 64 -> Z.land (Z.lor o 0xC0) 0x3F = o.
Proof.
  intros Ho.
  pose proof (below_cases 64 (fun x => Z.land (Z.lor x 0xC0) 0x3F =? x) eq_refl o Ho) as H.
  cbv beta in H. lia.
Qed.

Lemma vendor_byte_ok o : 0 <= o < 64 -> u8_ok (Z.lor o 0xC0) = true.
Proof.
  intros Ho.
  exact (below_cases 64 (fun x => u8_ok (Z.lor x 0xC0)) eq_refl o Ho).
Qed.

Lemma vendor_byte_negative o : o < 0 -> u8_ok (Z.lor o 0xC0) = false.
Proof.
  intros Ho. unfold u8_ok.
  assert (H : Z.lor o 0xC0 < 0) by (apply Z.lor_neg; left; exact Ho).
  replace (0 <=? Z.lor o 0xC0) with false by (symmetry; apply Z.leb_gt; exact H).
  reflexivity.
Qed.

(** ** Decoding opcodes *)

(** X1.  [Opcode.from_bytes] looks at no more than the first three bytes:
    whatever follows them does not change the result or the exception. *)
Theorem Opcode_from_bytes_reads_three b0 b1 b2 rest :
  Opcode.from_bytes (b0 :: b1 :: b2 :: rest) = Opcode.from_bytes [b0; b1; b2].
Proof. reflexivity. Qed.

(** X2.  A first byte below 0x7F decodes, whatever follows it, to an opcode
    without a company id whose value is the byte's top two bits in place:
    0 for bytes below 0x40 and 0x40 for the others.  The low six bits are
    dropped. *)
Theorem Opcode_from_bytes_one_octet b0 rest :
  0 <= b0 < 0x7F ->
  Opcode.from_bytes (b0 :: rest)
  = Ok (Opcode.mk (Some (if b0 <? 0x40 then 0 else 0x40)) None).
Proof.
  intros Hb.
  assert (Hs : (Z.shiftr b0 6 <? 2) = true).
  { exact (below_cases 127 (fun x => Z.shiftr x 6 <? 2) eq_refl b0 Hb). }
  assert (Hm : Z.land b0 0xC0 = if b0 <? 0x40 then 0 else 0x40).
  { pose proof (below_cases 127
      (fun x => Z.land x 0xC0 =? (if x <? 0x40 then 0 else 0x40)) eq_refl b0 Hb) as H.
    cbv beta in H. apply Z.eqb_eq in H. exact H. }
  unfold Opcode.from_bytes, bind.
  change (getitem (b0 :: rest) 0) with (Ok b0). cbv beta iota.
  rewrite Hs, Hm.
  replace (b0 =? 127) with false by (symmetry; apply Z.eqb_neq; lia).
  destruct (b0 <? 0x40); reflexivity.
Qed.

Lemma Opcode_from_bytes_one_octet_witness :
  Opcode.from_bytes [0x3F; 0x55] = Ok (Opcode.mk (Some 0) None) /\
  Opcode.from_bytes [0x41] = Ok (Opcode.mk (Some 0x40) None).
Proof.
  split.
  - apply (Opcode_from_bytes_one_octet 0x3F [0x55]). lia.
  - apply (Opcode_from_bytes_one_octet 0x41 []). lia.
Defined.

(** X3.  Inputs [Opcode.from_bytes] refuses: the empty input ([IndexError]),
    any input starting with the reserved byte 0x7F ([ValueError]), a lone
    first byte of the two-octet class ([IndexError]), and a first byte of
    the three-octet class followed by fewer than two bytes
    ([struct.error]). *)
Theorem Opcode_from_bytes_refused a0 c0 :
  is_byte a0 -> Z.shiftr a0 6 = 2 ->
  is_byte c0 -> Z.shiftr c0 6 = 3 ->
  Opcode.from_bytes [] = Raise IndexError /\
  (forall rest, Opcode.from_bytes (0x7F :: rest) = Raise (ValueError "RFU")) /\
  Opcode.from_bytes [a0] = Raise IndexError /\
  Opcode.from_bytes [c0] = Raise StructError /\
  (forall b1, Opcode.from_bytes [c0; b1] = Raise StructError).
Proof.
  intros Ha Hsa Hc Hsc. split; [|split; [|split; [|split]]].
  - reflexivity.
  - intros rest. reflexivity.
  - unfold Opcode.from_bytes, bind.
    change (getitem [a0] 0) with (Ok a0). cbv beta iota.
    rewrite Hsa. reflexivity.
  - unfold Opcode.from_bytes, bind.
    change (getitem [c0] 0) with (Ok c0). cbv beta iota.
    rewrite Hsc. reflexivity.
  - intros b1. unfold Opcode.from_bytes, bind.
    change (getitem [c0; b1] 0) with (Ok c0). cbv beta iota.
    rewrite Hsc. reflexivity.
Qed.

Lemma Opcode_from_bytes_refused_witness :
  Opcode.from_bytes [] = Raise IndexError /\
  (forall rest, Opcode.from_bytes (0x7F :: rest) = Raise (ValueError "RFU")) /\
  Opcode.from_bytes [0x82] = Raise IndexError /\
  Opcode.from_bytes [0xD0] = Raise StructError /\
  (forall b1, Opcode.from_bytes [0xD0; b1] = Raise StructError).
Proof.
  apply (Opcode_from_bytes_refused 0x82 0xD0);
    solve [unfold is_byte; lia | reflexivity].
Defined.

Lemma Opcode_init_no_company op cid o :
  is_None cid = true \/ (exists items, cid = PyTuple items) ->
  Opcode.__init__ op cid = Ok o ->
  Opcode.company_id o = None /\ Opcode.opcode o = Some op.
Proof.
  intros [Hn | [items ->]].
  - destruct cid; try discriminate. intros H.
    apply Opcode_init_plain in H. subst o. split; reflexivity.
  - rewrite Opcode_init_tuple. discriminate.
Qed.

Lemma Opcode_from_bytes_unassigned b o :
  Opcode.from_bytes b = Ok o ->
  Opcode.company_id o = None /\ exists v, Opcode.opcode o = Some v.
Proof.
  unfold Opcode.from_bytes, bind.
  destruct (getitem b 0) as [b0|e]; [|discriminate].
  destruct (if Z.shiftr b0 6 <? 2
            then if b0 =? 127 then Raise (ValueError "RFU") else Ok 1
            else Ok (Z.shiftr b0 6)) as [size|e]; [|discriminate].
  destruct (size =? 3).
  - destruct (struct_unpack_H (slice b 1 3)) as [c|e] eqn:Eu; [|discriminate].
    unfold struct_unpack_H in Eu.
    destruct (slice b 1 3) as [|lo [|hi [|x l]]]; try discriminate.
    injection Eu as <-. rewrite Opcode_init_tuple. discriminate.
  - destruct (size =? 2).
    + destruct (getitem b 1) as [b1|e]; [|discriminate].
      intros H. apply Opcode_init_no_company in H; [|left; reflexivity].
      destruct H as [H1 H2]. eauto.
    + intros H. apply Opcode_init_no_company in H; [|left; reflexivity].
      destruct H as [H1 H2]. eauto.
Qed.

(** X4.  Whatever the input (bytes or not), an opcode returned by
    [Opcode.from_bytes] has a value and no [company_id] attribute:
    decoding never yields a vendor opcode. *)
Theorem Opcode_from_bytes_never_vendor b o :
  Opcode.from_bytes b = Ok o ->
  Opcode.company_id o = None /\ exists v, Opcode.opcode o = Some v.
Proof. apply Opcode_from_bytes_unassigned. Qed.

Lemma Opcode_from_bytes_never_vendor_witness :
  Opcode.company_id (Opcode.mk (Some 0x8001) None) = None /\
  exists v, Opcode.opcode (Opcode.mk (Some 0x8001) None) = Some v.
Proof.
  apply (Opcode_from_bytes_never_vendor [0x82; 0x01]). reflexivity.
Defined.

(** X5.  No decoded opcode can be measured or re-encoded: for every input,
    [from_bytes] followed by [len] raises, and so does [from_bytes]
    followed by [as_bytes]. *)
Theorem Opcode_decoded_not_encodable b :
  (exists e, (o <- Opcode.from_bytes b ;; Opcode.__len__ o) = Raise e) /\
  (exists e, (o <- Opcode.from_bytes b ;; Opcode.as_bytes o) = Raise e).
Proof.
  destruct (Opcode.from_bytes b) as [o|e] eqn:E; simpl.
  - apply Opcode_from_bytes_unassigned in E. destruct E as [E _].
    rewrite (Opcode_len_unassigned o E), (Opcode_as_bytes_unassigned o E). eauto.
  - eauto.
Qed.

(** X6.  [AccessPayload.from_bytes] returns for no input at all: either
    the opcode does not decode, or [len(opcode)] raises on the decoded
    opcode. *)
Theorem AccessPayload_from_bytes_raises b :
  exists e, AccessPayload.from_bytes b = Raise e.
Proof.
  unfold AccessPayload.from_bytes.
  destruct (Opcode.from_bytes b) as [o|e] eqn:E; simpl.
  - apply Opcode_from_bytes_unassigned in E. destruct E as [E _].
    rewrite (Opcode_len_unassigned o E). simpl. eauto.
  - eauto.
Qed.

(** ** Encoding opcodes *)

Lemma u8_ok_byte v : u8_ok v = true -> is_byte v.
Proof.
  unfold u8_ok, is_byte. rewrite andb_true_iff, !Z.leb_le. lia.
Qed.

Lemma le16_bytes v : u16_ok v = true -> is_bytes (le16 v).
Proof.
  intros H. apply u16_ok_iff in H.
  destruct (le16_parts v H) as [Hl [Hh _]].
  unfold le16, is_bytes.
  constructor; [exact Hl | constructor; [exact Hh | constructor]].
Qed.

Lemma Opcode_as_bytes_bytes o b :
  Opcode.as_bytes o = Ok b -> 1 <= len b <= 3 /\ is_bytes b.
Proof.
  unfold Opcode.as_bytes.
  destruct (Opcode.__len__ o) as [n|e]; [|discriminate]. simpl.
  destruct (n =? 3).
  - destruct (Opcode.opcode o) as [v|]; [|discriminate].
    destruct (Opcode.company_id o) as [[|c|items]|]; try discriminate. simpl.
    destruct (u8_ok (Z.lor v 192)) eqn:E8; [|discriminate].
    destruct (u16_ok c) eqn:E16; [|discriminate]. simpl.
    intros [= <-]. split; [unfold len; simpl; lia|].
    constructor; [exact (u8_ok_byte _ E8) | exact (le16_bytes c E16)].
  - destruct (n =? 2).
    + destruct (Opcode.opcode o) as [v|]; [|discriminate]. simpl.
      unfold struct_pack_H. destruct (u16_ok (Z.lor v 32768)) eqn:E16; [|discriminate].
      intros [= <-]. split; [unfold len; simpl; lia|].
      exact (le16_bytes _ E16).
    + destruct (n =? 1); [|discriminate].
      destruct (Opcode.opcode o) as [v|]; [|discriminate]. simpl.
      unfold struct_pack_B. destruct (u8_ok v) eqn:E8; [|discriminate].
      intros [= <-]. split; [unfold len; simpl; lia|].
      constructor; [exact (u8_ok_byte _ E8) | constructor].
Qed.

(** X7.  Whenever [as_bytes] returns, for an opcode object in any state,
    it returns between one and three bytes, each in [0, 256), and as many
    of them as [len] of the opcode says. *)
Theorem Opcode_as_bytes_well_formed o b :
  Opcode.as_bytes o = Ok b ->
  Opcode.__len__ o = Ok (len b) /\ 1 <= len b <= 3 /\ is_bytes b.
Proof.
  intros H. split.
  - exact (Opcode_len_as_bytes o b H).
  - exact (Opcode_as_bytes_bytes o b H).
Qed.

Lemma Opcode_as_bytes_well_formed_witness :
  Opcode.__len__ vendor_0x10_0x0059 = Ok (len [0xD0; 0x59; 0x00]) /\
  1 <= len [0xD0; 0x59; 0x00] <= 3 /\ is_bytes [0xD0; 0x59; 0x00].
Proof.
  apply (Opcode_as_bytes_well_formed vendor_0x10_0x0059 [0xD0; 0x59; 0x00]).
  reflexivity.
Defined.

(** X8.  What construction with an integer company id followed by
    [as_bytes] gives, for all integers: the three bytes when
    [0 <= opcode < 64] and [0 <= company_id < 0xFFFF]; [struct.error] when
    the pair passed the constructor's test but one of the two is
    negative; [AttributeError] when it did not pass it (the object has no
    attributes). *)
Theorem Opcode_vendor_encoding op c :
  (o <- Opcode.__init__ op (PyInt c) ;; Opcode.as_bytes o) =
  if (c <? 0xFFFF) && (op <? 64) then
    if (0 <=? op) && (0 <=? c) then
      Ok [Z.lor op 0xC0; Z.land c 0xFF; Z.shiftr c 8]
    else Raise StructError
  else Raise (AttributeError "company_id").
Proof.
  rewrite Opcode_init_vendor.
  destruct ((c <? 0xFFFF) && (op <? 64)) eqn:E; simpl bind; [|reflexivity].
  apply andb_true_iff in E. destruct E as [Ec Eo].
  apply Z.ltb_lt in Ec. apply Z.ltb_lt in Eo.
  rewrite Opcode_as_bytes_vendor. unfold struct_pack_BH.
  destruct (0 <=? op) eqn:Hop.
  - apply Z.leb_le in Hop. rewrite vendor_byte_ok by lia.
    unfold u16_ok. destruct (0 <=? c) eqn:Hc; simpl; [|reflexivity].
    replace (c <=? 65535) with true by (symmetry; apply Z.leb_le; lia).
    reflexivity.
  - apply Z.leb_gt in Hop. rewrite vendor_byte_negative by lia. reflexivity.
Qed.

Lemma Opcode_encoded_shape op cid o b :
  Opcode.__init__ op cid = Ok o ->
  Opcode.as_bytes o = Ok b ->
  exists c,
    o = Opcode.mk (Some op) (Some (PyInt c)) /\
    0 <= op < 64 /\ 0 <= c < 0xFFFF /\
    b = [Z.lor op 0xC0; Z.land c 0xFF; Z.shiftr c 8].
Proof.
  destruct cid as [|c|items].
  - intros H. apply Opcode_init_plain in H. subst o.
    rewrite Opcode_as_bytes_unassigned by reflexivity. discriminate.
  - intros Hi Hb. pose proof (Opcode_vendor_encoding op c) as He.
    rewrite Hi in He. simpl bind in He. rewrite Hb in He.
    rewrite Opcode_init_vendor in Hi.
    destruct ((c <? 0xFFFF) && (op <? 64)) eqn:E; [|discriminate].
    destruct ((0 <=? op) && (0 <=? c)) eqn:E'; [|discriminate].
    apply andb_true_iff in E. destruct E as [Ec Eo].
    apply andb_true_iff in E'. destruct E' as [Eo' Ec'].
    apply Z.ltb_lt in Ec. apply Z.ltb_lt in Eo.
    apply Z.leb_le in Ec'. apply Z.leb_le in Eo'.
    injection Hi as <-. injection He as ->.
    exists c. repeat split; lia.
  - rewrite Opcode_init_tuple. discriminate.
Qed.

(** X9.  Encoding loses nothing: two opcodes that the constructor
    returned and that [as_bytes] maps to the same bytes are the same
    opcode (same value, same company id). *)
Theorem Opcode_as_bytes_injective op1 cid1 o1 op2 cid2 o2 b :
  Opcode.__init__ op1 cid1 = Ok o1 ->
  Opcode.__init__ op2 cid2 = Ok o2 ->
  Opcode.as_bytes o1 = Ok b ->
  Opcode.as_bytes o2 = Ok b ->
  o1 = o2.
Proof.
  intros Hi1 Hi2 Hb1 Hb2.
  destruct (Opcode_encoded_shape op1 cid1 o1 b Hi1 Hb1) as [c1 [-> [Ho1 [Hc1 E1]]]].
  destruct (Opcode_encoded_shape op2 cid2 o2 b Hi2 Hb2) as [c2 [-> [Ho2 [Hc2 E2]]]].
  rewrite E1 in E2. injection E2 as Ea El Eh.
  assert (op1 = op2).
  { rewrite <- (vendor_low_bits op1 Ho1), <- (vendor_low_bits op2 Ho2), Ea. reflexivity. }
  assert (c1 = c2).
  { destruct (le16_parts c1) as [_ [_ R1]]; [lia|].
    destruct (le16_parts c2) as [_ [_ R2]]; [lia|].
    rewrite <- R1, <- R2, El, Eh. reflexivity. }
  subst. reflexivity.
Qed.

Lemma Opcode_as_bytes_injective_witness :
  vendor_0x10_0x0059 = Opcode.mk (Some 0x10) (Some (PyInt 0x0059)).
Proof.
  apply (Opcode_as_bytes_injective
           0x10 (PyInt 0x0059) vendor_0x10_0x0059
           0x10 (PyInt 0x0059) (Opcode.mk (Some 0x10) (Some (PyInt 0x0059)))
           [0xD0; 0x59; 0x00]); reflexivity.
Defined.

(** ** Model identifiers *)

(** X10.  [ModelIdentifier.from_bytes] returns exactly for inputs of four
    items; every other length, the empty input included, raises. *)
Theorem ModelIdentifier_from_bytes_length b :
  is_ok (ModelIdentifier.from_bytes b) = (List.length b =? 4)%nat.
Proof.
  unfold ModelIdentifier.from_bytes, struct_unpack_HH.
  destruct b as [|x0 [|x1 [|x2 [|x3 [|x4 rest]]]]]; reflexivity.
Qed.

Section ModelIdentifierFacts.

Variable model_id_to_bytes : Z -> result bytes.

(** X11.  Decoding four bytes and encoding the result gives the four bytes
    back when the company id they hold is not zero.  When it is zero the
    encoder takes the identifier for one without a company id and answers
    with the model number's own [to_bytes]. *)
Theorem ModelIdentifier_decode_encode c0 c1 m0 m1 :
  is_byte c0 -> is_byte c1 -> is_byte m0 -> is_byte m1 ->
  (m <- ModelIdentifier.from_bytes [c0; c1; m0; m1] ;;
   ModelIdentifier.to_bytes model_id_to_bytes m)
  = if of_le16 c0 c1 =? 0 then model_id_to_bytes (of_le16 m0 m1)
    else Ok [c0; c1; m0; m1].
Proof.
  intros Hc0 Hc1 Hm0 Hm1.
  pose proof (of_le16_range c0 c1 Hc0 Hc1) as Rc.
  pose proof (of_le16_range m0 m1 Hm0 Hm1) as Rm.
  apply u16_ok_iff in Rc. apply u16_ok_iff in Rm.
  change (ModelIdentifier.from_bytes [c0; c1; m0; m1])
    with (Ok (ModelIdentifier.mk (PyInt (of_le16 c0 c1)) (of_le16 m0 m1))).
  cbv beta iota delta [bind ModelIdentifier.to_bytes truthy struct_pack_HH
                       ModelIdentifier.company_id ModelIdentifier.model_id].
  destruct (of_le16 c0 c1 =? 0); cbv beta iota delta [negb]; [reflexivity|].
  rewrite Rc, Rm. cbv beta iota delta [andb].
  rewrite (le16_of_le16 c0 c1 Hc0 Hc1), (le16_of_le16 m0 m1 Hm0 Hm1). reflexivity.
Qed.

(** X12.  Encoding an identifier whose company id is an integer from 1 to
    0xFFFF and whose model number is from 0 to 0xFFFF, and decoding the
    four bytes, gives the identifier back. *)
Theorem ModelIdentifier_encode_decode c m :
  0 < c <= 0xFFFF -> 0 <= m <= 0xFFFF ->
  (b <- ModelIdentifier.to_bytes model_id_to_bytes (ModelIdentifier.__init__ m (PyInt c)) ;;
   ModelIdentifier.from_bytes b)
  = Ok (ModelIdentifier.__init__ m (PyInt c)).
Proof.
  intros Hc Hm.
  assert (Rc : u16_ok c = true) by (apply u16_ok_iff; lia).
  assert (Rm : u16_ok m = true) by (apply u16_ok_iff; lia).
  destruct (le16_parts c) as [_ [_ Ec]]; [lia|].
  destruct (le16_parts m) as [_ [_ Em]]; [lia|].
  cbv beta iota delta [ModelIdentifier.to_bytes ModelIdentifier.__init__ truthy
                       struct_pack_HH ModelIdentifier.company_id
                       ModelIdentifier.model_id].
  replace (c =? 0) with false by (symmetry; apply Z.eqb_neq; lia).
  cbv beta iota delta [negb]. rewrite Rc, Rm.
  cbv beta iota delta [andb bind le16 app ModelIdentifier.from_bytes struct_unpack_HH].
  rewrite Ec, Em. reflexivity.
Qed.

End ModelIdentifierFacts.

Lemma ModelIdentifier_decode_encode_witness :
  (m <- ModelIdentifier.from_bytes [0x59; 0x00; 0x34; 0x12] ;;
   ModelIdentifier.to_bytes struct_pack_H m)
  = if of_le16 0x59 0x00 =? 0 then struct_pack_H (of_le16 0x34 0x12)
    else Ok [0x59; 0x00; 0x34; 0x12].
Proof.
  apply (ModelIdentifier_decode_encode struct_pack_H 0x59 0x00 0x34 0x12);
    unfold is_byte; lia.
Defined.

Lemma ModelIdentifier_encode_decode_witness :
  (b <- ModelIdentifier.to_bytes struct_pack_H
          (ModelIdentifier.__init__ 0x1234 (PyInt 0x0059)) ;;
   ModelIdentifier.from_bytes b)
  = Ok (ModelIdentifier.__init__ 0x1234 (PyInt 0x0059)).
Proof.
  apply (ModelIdentifier_encode_decode struct_pack_H 0x0059 0x1234); lia.
Defined.

(** ** Access payloads *)

(** X13.  When a payload built from a constructed opcode encodes, the
    result is the three opcode bytes followed by the parameters unchanged,
    it is at most 383 bytes long, and [len] of the payload is its
    length. *)
Theorem AccessPayload_to_bytes_layout op cid o params p b :
  Opcode.__init__ op cid = Ok o ->
  AccessPayload.__init__ o params = Ok p ->
  AccessPayload.to_bytes p = Ok b ->
  Opcode.as_bytes o = Ok (slice b 0 3) /\
  slice_from b 3 = params /\
  len b = 3 + len params /\ len b <= 383 /\
  AccessPayload.__len__ p = Ok (len b).
Proof.
  intros Ho Hp Hb.
  unfold AccessPayload.__init__, AccessPayload.MAX_SIZE in Hp.
  destruct (len params >? 380) eqn:Hsize; [discriminate|].
  injection Hp as <-.
  unfold AccessPayload.to_bytes, AccessPayload.__len__ in *.
  simpl AccessPayload.opcode in *. simpl AccessPayload.parameters in *.
  destruct (Opcode.as_bytes o) as [head|e] eqn:Eh; [|discriminate].
  simpl in Hb. injection Hb as <-.
  rewrite (Opcode_len_as_bytes o head Eh). simpl bind.
  destruct (Opcode_encoded_shape op cid o head Ho Eh) as [c [_ [_ [_ ->]]]].
  rewrite Z.gtb_ltb in Hsize. apply Z.ltb_ge in Hsize.
  unfold len in *. cbn [slice slice_from app firstn skipn Nat.sub List.length].
  split; [reflexivity|]. split; [reflexivity|].
  split; [lia|]. split; [lia|]. f_equal. lia.
Qed.

Lemma AccessPayload_to_bytes_layout_witness :
  let b := [0xD0; 0x59; 0x00; 0x01; 0xFF] in
  Opcode.as_bytes vendor_0x10_0x0059 = Ok (slice b 0 3) /\
  slice_from b 3 = [0x01; 0xFF] /\
  len b = 3 + len [0x01; 0xFF] /\ len b <= 383 /\
  AccessPayload.__len__ (AccessPayload.mk vendor_0x10_0x0059 [0x01; 0xFF]) = Ok (len b).
Proof.
  apply (AccessPayload_to_bytes_layout 0x10 (PyInt 0x0059) vendor_0x10_0x0059
           [0x01; 0xFF] (AccessPayload.mk vendor_0x10_0x0059 [0x01; 0xFF]));
    reflexivity.
Defined.

(** ** Access messages and their records *)


Lemma dict_getitem_absent d k :
  (forall v, ~ In (k, v) d) -> dict_getitem d k = Raise (KeyError k).
Proof.
  induction d as [|[k' v'] d IH]; intros H; [reflexivity|].
  simpl. destruct (String.eqb k k') eqn:E.
  - apply String.eqb_eq in E. subst k'. exfalso. apply (H v'). left. reflexivity.
  - apply IH. intros v Hin. apply (H v). right. exact Hin.
Qed.

Section AccessMessageRecords.

Context {mesh : Mesh}.

(** X14.  [AccessMessage.__init__] does not look at the size of the
    payload; the bound of 380 bytes is met only by [access_payload], which
    raises [OverflowError] for a constructed message with a longer payload
    and otherwise returns the message's opcode and payload. *)
Theorem AccessMessage_payload_size_deferred
    (src dst : Address) (ttl : TTL) (opcode : Opcode.t) (payload : bytes)
    (appkey_index : option AppKeyIndex) (netkey_index : NetKeyIndex)
    (big_mic local_device_key remote_device_key force_segment : bool)
    (m : AccessMessage.t) :
  AccessMessage.__init__ src dst ttl opcode payload appkey_index netkey_index
    big_mic local_device_key remote_device_key force_segment = Ok m ->
  (forall payload',
      is_ok (AccessMessage.__init__ src dst ttl opcode payload' appkey_index netkey_index
               big_mic local_device_key remote_device_key force_segment) = true) /\
  AccessMessage.access_payload m =
    if len payload >? 380 then Raise (OverflowError "access payload too big")
    else Ok (AccessPayload.mk opcode payload).
Proof.
  unfold AccessMessage.__init__.
  destruct (negb (negb (local_device_key && remote_device_key))); [discriminate|].
  destruct ((local_device_key || remote_device_key)
            && AccessMessage.is_not_None appkey_index); [discriminate|].
  intros [= <-]. split; reflexivity.
Qed.

(** X15.  For a constructed message, [device_key] answering true means
    that the remote flag is set, the local flag is not, and the message
    has no application-key index. *)
Theorem AccessMessage_device_key_true
    (src dst : Address) (ttl : TTL) (opcode : Opcode.t) (payload : bytes)
    (appkey_index : option AppKeyIndex) (netkey_index : NetKeyIndex)
    (big_mic local_device_key remote_device_key force_segment : bool)
    (m : AccessMessage.t) :
  AccessMessage.__init__ src dst ttl opcode payload appkey_index netkey_index
    big_mic local_device_key remote_device_key force_segment = Ok m ->
  AccessMessage.device_key m = true ->
  AccessMessage.remote_device_key m = true /\
  AccessMessage.local_device_key m = false /\
  AccessMessage.appkey_index m = None.
Proof.
  unfold AccessMessage.__init__, AccessMessage.device_key.
  destruct local_device_key, remote_device_key, appkey_index as [k|];
    simpl; try discriminate; intros [= <-]; simpl; intros H;
    try discriminate; repeat split.
Qed.

(** X16.  The record [to_dict] returns has exactly the eleven keys of the
    source, in its order (the last is [force_seg], and there is no key
    [force_segment]); looking a key up gives the numeric value or the flag
    of the message.  The entry [appkey_index] is the index's number when
    the message has an index and that index object is true in a condition,
    and [None] otherwise. *)
Theorem AccessMessage_to_dict_fields (m : AccessMessage.t) (d : DictValue) :
  AccessMessage.to_dict m = Ok d ->
  map fst d = [ "src"; "dst"; "ttl"; "opcode"; "payload"; "netkey_index";
                "appkey_index"; "big_mic"; "local_device_key";
                "remote_device_key"; "force_seg" ]%string /\
  dict_getitem d "src" = Ok (JInt (Address_value (AccessMessage.src m))) /\
  dict_getitem d "dst" = Ok (JInt (Address_value (AccessMessage.dst m))) /\
  dict_getitem d "ttl" = Ok (JInt (TTL_value (AccessMessage.ttl m))) /\
  dict_getitem d "netkey_index"
    = Ok (JInt (NetKeyIndex_value (AccessMessage.netkey_index m))) /\
  dict_getitem d "appkey_index"
    = Ok match AccessMessage.appkey_index m with
         | Some k => if AppKeyIndex_bool k then JInt (AppKeyIndex_value k) else JNone
         | None => JNone
         end /\
  dict_getitem d "big_mic" = Ok (JBool (AccessMessage.big_mic m)) /\
  dict_getitem d "local_device_key" = Ok (JBool (AccessMessage.local_device_key m)) /\
  dict_getitem d "remote_device_key" = Ok (JBool (AccessMessage.remote_device_key m)) /\
  dict_getitem d "force_seg" = Ok (JBool (AccessMessage.force_segment m)) /\
  dict_getitem d "force_segment" = Raise (KeyError "force_segment").
Proof.
  unfold AccessMessage.to_dict.
  destruct (Opcode.as_bytes (AccessMessage.opcode m)) as [head|e]; [|discriminate].
  simpl. intros [= <-]. repeat split.
Qed.

(** X17.  The two hexadecimal fields of the record read back, with
    [bytes.fromhex], as the bytes they were written from: [opcode] as the
    encoded opcode and, for a payload of bytes, [payload] as the
    payload. *)
Theorem AccessMessage_to_dict_hex (m : AccessMessage.t) (d : DictValue) :
  is_bytes (AccessMessage.payload m) ->
  AccessMessage.to_dict m = Ok d ->
  (v <- dict_getitem d "payload" ;; bytes_fromhex v) = Ok (AccessMessage.payload m) /\
  (v <- dict_getitem d "opcode" ;; bytes_fromhex v)
    = Opcode.as_bytes (AccessMessage.opcode m).
Proof.
  intros Hp. unfold AccessMessage.to_dict.
  destruct (Opcode.as_bytes (AccessMessage.opcode m)) as [head|e] eqn:Eh; [|discriminate].
  simpl bind. intros [= <-].
  destruct (Opcode_as_bytes_bytes _ _ Eh) as [_ Hh].
  split.
  - change (fromhex (hex (AccessMessage.payload m)) = Ok (AccessMessage.payload m)).
    exact (fromhex_hex _ Hp).
  - change (fromhex (hex head) = Ok head).
    exact (fromhex_hex _ Hh).
Qed.

(** X18.  A message whose opcode was constructed without a company id
    has no record: [to_dict] raises [AttributeError] for it, whatever its
    other fields are. *)
Theorem AccessMessage_to_dict_plain_opcode (op : Z) (m : AccessMessage.t) :
  Opcode.__init__ op PyNone = Ok (AccessMessage.opcode m) ->
  AccessMessage.to_dict m = Raise (AttributeError "company_id").
Proof.
  intros H. apply Opcode_init_plain in H.
  unfold AccessMessage.to_dict. rewrite H. reflexivity.
Qed.


(** X20.  A record without the key [src] is refused with
    [KeyError('src')], whatever else it holds. *)
Theorem AccessMessage_from_dict_no_src (d : DictValue) :
  (forall v, ~ In ("src"%string, v) d) ->
  AccessMessage.from_dict d = Raise (KeyError "src").
Proof.
  intros H. unfold AccessMessage.from_dict.
  rewrite (dict_getitem_absent d "src" H). reflexivity.
Qed.

End AccessMessageRecords.

Lemma AccessMessage_payload_size_deferred_witness :
  let long := repeat 0 381 in
  let m := AccessMessage.mk 0x0001 0xC000 5 vendor_0x10_0x0059 long (Some 1) 0
             false false false false in
  (forall payload',
      is_ok (AccessMessage.__init__ 0x0001 0xC000 5 vendor_0x10_0x0059 payload'
               (Some 1) 0 false false false false) = true) /\
  AccessMessage.access_payload m =
    if len long >? 380 then Raise (OverflowError "access payload too big")
    else Ok (AccessPayload.mk vendor_0x10_0x0059 long).
Proof.
  intros long m.
  apply (AccessMessage_payload_size_deferred (mesh := IntMesh)
           0x0001 0xC000 5 vendor_0x10_0x0059 long (Some 1) 0
           false false false false m).
  reflexivity.
Defined.

Lemma AccessMessage_device_key_true_witness :
  let m := AccessMessage.mk 0x0001 0x0002 5 vendor_0x10_0x0059 [0x01] None 0
             false false true false in
  AccessMessage.remote_device_key m = true /\
  AccessMessage.local_device_key m = false /\
  AccessMessage.appkey_index m = None.
Proof.
  intros m.
  apply (AccessMessage_device_key_true (mesh := IntMesh)
           0x0001 0x0002 5 vendor_0x10_0x0059 [0x01] None 0
           false false true false m); reflexivity.
Defined.

Lemma AccessMessage_to_dict_fields_witness :
  let m := AccessMessage.mk 0x0001 0xC000 5 vendor_0x10_0x0059 [0x01; 0xFF] (Some 1) 0
             false false false false in
  dict_getitem record_appkey_group "force_seg" = Ok (JBool (AccessMessage.force_segment m)) /\
  dict_getitem record_appkey_group "force_segment" = Raise (KeyError "force_segment").
Proof.
  intros m.
  pose proof (AccessMessage_to_dict_fields (mesh := IntMesh) m record_appkey_group eq_refl)
    as H.
  split; apply H.
Defined.

Lemma AccessMessage_to_dict_hex_witness :
  let m := AccessMessage.mk 0x0001 0xC000 5 vendor_0x10_0x0059 [0x01; 0xFF] (Some 1) 0
             false false false false in
  (v <- dict_getitem record_appkey_group "payload" ;; bytes_fromhex v) = Ok [0x01; 0xFF] /\
  (v <- dict_getitem record_appkey_group "opcode" ;; bytes_fromhex v)
    = Opcode.as_bytes vendor_0x10_0x0059.
Proof.
  intros m.
  apply (AccessMessage_to_dict_hex (mesh := IntMesh) m record_appkey_group).
  - repeat constructor; unfold is_byte; lia.
  - reflexivity.
Defined.

Lemma AccessMessage_to_dict_plain_opcode_witness :
  AccessMessage.to_dict
    (AccessMessage.mk 0x0001 0xC000 5 (Opcode.mk (Some 0x01) None) [0x01; 0xFF] (Some 1) 0
       false false false false)
  = Raise (AttributeError "company_id").
Proof.
  apply (AccessMessage_to_dict_plain_opcode (mesh := IntMesh) 0x01). reflexivity.
Defined.


Lemma AccessMessage_from_dict_no_src_witness :
  AccessMessage.from_dict [("dst"%string, JInt 0xC000); ("ttl"%string, JInt 5)]
  = Raise (KeyError "src").
Proof.
  apply (AccessMessage_from_dict_no_src (mesh := IntMesh)).
  intros v [H | [H | []]]; discriminate H.
Defined.
